(** * MuiAutocomplete: the MUI Autocomplete bound to React Hook Form

    A shallow embedding of [src/mui-form/components/MuiAutocomplete.tsx].

    The component is a function from its props object to a rendering
    description.  Props objects are finite maps from property names to
    JavaScript values; JSX attribute lists are folded left to right, a later
    attribute overriding an earlier one, and the names React reserves are
    left out of the props; the arrow functions the component
    hands to the widgets are Rocq functions from argument lists to outcomes;
    the one hook the component calls, [useController], is an operation of a
    small rendering monad that an interpreter answers with the handles of the
    form controller. *)

From stdpp Require Import gmap strings list fin_maps.

Open Scope string_scope.

(** ** JavaScript values *)

(** The values that travel through the component.  Numbers are the integral
    ones (the component does no arithmetic).  [VRef] is a function or host
    object owned by somebody else (the caller's callbacks, the form control,
    the notifiers of a field, a DOM event): the component passes such values
    along and never looks inside them, so only their identity is kept. *)
#[warnings="-register-all"]
Inductive val : Type :=
| VUndefined
| VNull
| VBool (b : bool)
| VNum (n : Z)
| VStr (s : string)
| VArr (items : list val)
| VObj (fields : gmap string val)
| VRef (id : string).

(** [ToBoolean]: what [!!v], [v && w] and [v ? a : b] test. *)
Definition truthy (v : val) : bool :=
  match v with
  | VUndefined | VNull => false
  | VBool b => b
  | VNum n => negb (n =? 0)%Z
  | VStr s => match s with EmptyString => false | String _ _ => true end
  | VArr _ | VObj _ | VRef _ => true
  end.

Definition nullish (v : val) : bool :=
  match v with
  | VUndefined | VNull => true
  | _ => false
  end.

(** [m[k]] on the property map of an object: a missing property reads as
    [undefined]. *)
Definition read (m : gmap string val) (k : string) : val :=
  default VUndefined (m !! k).

(** [v.k] for a [v] that is neither [null] nor [undefined].  The names the
    component reads ([label], [message], [id], [options], the two flags of
    [config], the two bags of [muiProps]) are own properties of plain objects
    only. *)
Definition prop_of (v : val) (k : string) : val :=
  match v with
  | VObj fields => read fields k
  | _ => VUndefined
  end.

(** [v?.k] *)
Definition opt_get (v : val) (k : string) : val :=
  if nullish v then VUndefined else prop_of v k.

(** [a ?? b] *)
Definition coalesce (a b : val) : val :=
  if nullish a then b else a.

(** [a && b] *)
Definition js_and (a b : val) : val :=
  if truthy a then b else a.

(** [c ? a : b] *)
Definition cond (c a b : val) : val :=
  if truthy c then a else b.

(** [!!v] *)
Definition to_bool (v : val) : val := VBool (truthy v).

(** The properties [{...v}] copies.  Spreading [undefined] or [null] copies
    nothing; the bags the component spreads are typed as objects or
    [undefined]. *)
Definition own (v : val) : gmap string val :=
  match v with
  | VObj fields => fields
  | _ => ∅
  end.

Notation "v ?. k" := (opt_get v k) (at level 19, left associativity, format "v ?. k").
Notation "a ?? b" := (coalesce a b) (at level 45, right associativity).

(** What is left of an object after a destructuring pattern
    [{ k1, ..., kn, ...rest }] has picked [k1] ... [kn]. *)
Definition rest_of (picked : list string) (m : gmap string val) : gmap string val :=
  foldr delete m picked.

(** ** Rendering descriptions *)

Inductive widget : Type := Autocomplete | TextField.

(** What calling one of the component's arrow functions amounts to. *)
Inductive outcome : Type :=
| Returns (v : val)
| Throws
    (* a [TypeError] from reading a property of [null] or [undefined] *)
| Calls (callee : val) (args : list val)
    (* the body is one call of a function owned by somebody else, whose
       result is the function's result *)
| Renders (component : widget) (props : gmap string val).

(** A prop of the rendered dropdown: a value passed along, or an arrow
    function written by the component. *)
Inductive prop : Type :=
| Plain (v : val)
| Closure (body : list val -> outcome).

(** JSX attributes in source order. *)
Inductive attr (P : Type) : Type :=
| Spread (bag : gmap string P)
| Attr (k : string) (v : P).
Arguments Spread {P} bag.
Arguments Attr {P} k v.

(** The object a JSX attribute list amounts to: attributes are applied left
    to right and a later one replaces an earlier one of the same name. *)
Definition merge_attrs {P : Type} (attrs : list (attr P)) : gmap string P :=
  foldl (fun acc a =>
           match a with
           | Spread bag => bag ∪ acc
           | Attr k v => <[k := v]> acc
           end) ∅ attrs.

(** The names React keeps to itself when it creates an element: they are
    taken from the attributes and are no props of the element.  This is the
    list of React 17 and 18, whose global [JSX.Element] type the component
    is declared with. *)
Definition RESERVED_PROPS : list string := ["key"; "ref"; "__self"; "__source"].

(** The props object of a JSX element: the object its attributes amount to,
    without the reserved names.  (The key and the ref of the element itself
    are React's and are no part of the rendering descriptions below; the two
    widgets declare no default props.) *)
Definition jsx_props {P : Type} (attrs : list (attr P)) : gmap string P :=
  foldr delete (merge_attrs attrs) RESERVED_PROPS.

(** The object of an attribute list read from the list: the binding of [k]
    is given by the last attribute that has one.  The argument is the
    attribute list reversed. *)
Fixpoint last_binding {P : Type} (k : string) (rev_attrs : list (attr P)) : option P :=
  match rev_attrs with
  | [] => None
  | Attr k' v :: earlier =>
      if String.eqb k' k then Some v else last_binding k earlier
  | Spread bag :: earlier =>
      match bag !! k with
      | Some v => Some v
      | None => last_binding k earlier
      end
  end.

Record element : Type := Element {
  component : widget;
  eprops : gmap string prop
}.

(** The [i]-th actual argument of a call; a missing one is [undefined]. *)
Definition arg (i : nat) (args : list val) : val :=
  default VUndefined (args !! i).

(** The widget calls its prop with the given arguments. *)
Definition invoke (p : prop) (args : list val) : outcome :=
  match p with
  | Closure body => body args
  | Plain callee => Calls callee args
  end.

(** The widget calls the prop named [k] of the element. *)
Definition fire (el : element) (k : string) (args : list val) : outcome :=
  match eprops el !! k with
  | Some p => invoke p args
  | None => Throws
  end.

(** ** The form controller's handles *)

(** What [useController] of react-hook-form returns, reduced to the
    properties the component reads: [field] (the Field Control Handle) and
    [fieldState.error] (the Validation State Handle: a [FieldError] object
    while the field is invalid, [undefined] otherwise). *)
Module RHF.

Record ControllerRenderProps : Type := {
  onChange : val;
  onBlur : val;
  value : val;
  name : val;
  ref : val
}.

Record ControllerFieldState : Type := {
  error : val
}.

Record UseControllerReturn : Type := {
  field : ControllerRenderProps;
  fieldState : ControllerFieldState
}.

End RHF.

(** ** The rendering monad *)

(** A render either is finished or asks the form controller for the handles
    of the field registered under the given settings and goes on with
    them. *)
Inductive Render (A : Type) : Type :=
| Ret (a : A)
| UseController (settings : gmap string val) (k : RHF.UseControllerReturn -> Render A).
Arguments Ret {A} a.
Arguments UseController {A} settings k.

Fixpoint bind {A B : Type} (m : Render A) (f : A -> Render B) : Render B :=
  match m with
  | Ret a => f a
  | UseController settings k => UseController settings (fun r => bind (k r) f)
  end.

Definition useController (settings : gmap string val) : Render RHF.UseControllerReturn :=
  UseController settings Ret.

#[global] Instance Render_ret : MRet Render := fun A a => Ret a.
#[global] Instance Render_bind : MBind Render := fun A B f m => bind m f.

(** Running a render against a form controller. *)
Fixpoint render {A : Type} (controller : gmap string val -> RHF.UseControllerReturn)
    (m : Render A) : A :=
  match m with
  | Ret a => a
  | UseController settings k => render controller (k (controller settings))
  end.

(** The registrations a render makes, in order. *)
Fixpoint registrations {A : Type} (controller : gmap string val -> RHF.UseControllerReturn)
    (m : Render A) : list (gmap string val) :=
  match m with
  | Ret _ => []
  | UseController settings k => settings :: registrations controller (k (controller settings))
  end.

(** ** The component *)

(** [(option) => option.label] *)
Definition getOptionLabel (args : list val) : outcome :=
  let option := arg 0 args in
  if nullish option then Throws else Returns (prop_of option "label").

(** [(_, value) => field.onChange(config?.manageWithLabel ? value?.label : value)] *)
Definition onChange (config : val) (field : RHF.ControllerRenderProps)
    (args : list val) : outcome :=
  let value := arg 1 args in
  Calls (RHF.onChange field)
        [cond (config?."manageWithLabel") (value?."label") value].

(** [(params) => <TextField {...textFieldProps} {...params} inputRef=... />] *)
Definition renderInput (textFieldProps config : val)
    (field : RHF.ControllerRenderProps) (fieldState : RHF.ControllerFieldState)
    (args : list val) : outcome :=
  let params := arg 0 args in
  Renders TextField
    (jsx_props
       [ Spread (own textFieldProps);
         Spread (own params);
         Attr "inputRef" (RHF.ref field);
         Attr "name" (RHF.name field);
         Attr "value" (RHF.value field);
         Attr "error" (to_bool (RHF.error fieldState));
         Attr "helperText"
              (js_and (config?."displayErrorMessage")
                      (RHF.error fieldState?."message")) ]).

Definition MuiAutocomplete (props : gmap string val) : Render element :=
  (* const { muiProps, config, ...others } = props; *)
  let muiProps := read props "muiProps" in
  let config := read props "config" in
  let others := rest_of ["muiProps"; "config"] props in
  (* const { autocompleteProps, textFieldProps } = muiProps ?? {}; *)
  let autocompleteProps := prop_of (muiProps ?? VObj ∅) "autocompleteProps" in
  let textFieldProps := prop_of (muiProps ?? VObj ∅) "textFieldProps" in
  (* const { field, fieldState } = useController(others); *)
  r ← useController others;
  let field := RHF.field r in
  let fieldState := RHF.fieldState r in
  mret (Element Autocomplete
         (jsx_props
            [ Spread (Plain <$> own autocompleteProps);
              Attr "id" (Plain (autocompleteProps?."id"));
              Attr "options" (Plain (autocompleteProps?."options" ?? VArr []));
              Attr "getOptionLabel" (Closure getOptionLabel);
              Attr "onChange" (Closure (onChange config field));
              Attr "onBlur" (Plain (RHF.onBlur field));
              Attr "renderInput"
                   (Closure (renderInput textFieldProps config field fieldState)) ])).

(** ** Sample inputs *)

(** The usage example of the component's documentation. *)
Definition film_options : list val :=
  [ VObj {[ "label" := VStr "The Dark Knight"; "year" := VNum 2008 ]};
    VObj {[ "label" := VStr "The Matrix"; "year" := VNum 1999 ]};
    VObj {[ "label" := VStr "Back to the Future"; "year" := VNum 1985 ]} ].

Definition film_settings : gmap string val :=
  {[ "name" := VStr "film";
     "control" := VRef "control";
     "rules" := VObj {[ "required" := VStr "Enter your favorite film." ]} ]}.

Definition film_props : gmap string val :=
  <["config" := VObj {[ "displayErrorMessage" := VBool true ]}]>
  (<["muiProps" :=
       VObj {[ "autocompleteProps" :=
                 VObj {[ "disablePortal" := VBool true;
                         "options" := VArr film_options ]};
               "textFieldProps" := VObj {[ "label" := VStr "Favorite Film" ]} ]}]>
   film_settings).

(** A form controller: the handles of the field named in the settings, with
    the given current value and validation error. *)
Definition film_form (current error : val) (settings : gmap string val)
    : RHF.UseControllerReturn :=
  {| RHF.field := {| RHF.onChange := VRef "field.onChange";
                     RHF.onBlur := VRef "field.onBlur";
                     RHF.value := current;
                     RHF.name := read settings "name";
                     RHF.ref := VRef "field.ref" |};
     RHF.fieldState := {| RHF.error := error |} |}.

Definition required_error : val :=
  VObj {[ "type" := VStr "required"; "message" := VStr "Required" ]}.

(** The same field with [manageWithLabel] switched on. *)
Definition label_props : gmap string val :=
  <["config" := VObj {[ "manageWithLabel" := VBool true ]}]> film_settings.

Definition the_matrix : gmap string val :=
  {[ "label" := VStr "The Matrix"; "year" := VNum 1999 ]}.

(** A caller who tries to supply the display-text extractor and the two
    handlers through the dropdown settings. *)
Definition meddling_props : gmap string val :=
  <["muiProps" :=
      VObj {[ "autocompleteProps" :=
                VObj {[ "options" := VArr film_options;
                        "getOptionLabel" := VRef "caller.getOptionLabel";
                        "onChange" := VRef "caller.onChange";
                        "onBlur" := VRef "caller.onBlur" ]} ]}]>
  film_settings.

(** What the dropdown passes to [renderInput]. *)
Definition widget_params : val :=
  VObj {[ "id" := VStr "film-input";
          "fullWidth" := VBool true;
          "InputProps" := VRef "InputProps";
          "inputProps" := VRef "inputProps" ]}.

(** * Properties *)

(** ** Reading objects *)

Lemma read_Some (m : gmap string val) (k : string) (v : val) :
  m !! k = Some v → read m k = v.
Proof. intros Hk. unfold read. rewrite Hk. reflexivity. Qed.

Lemma read_None (m : gmap string val) (k : string) :
  m !! k = None → read m k = VUndefined.
Proof. intros Hk. unfold read. rewrite Hk. reflexivity. Qed.

Lemma opt_get_object (fields : gmap string val) (k : string) :
  VObj fields?.k = read fields k.
Proof. reflexivity. Qed.

Lemma prop_of_default_object (fields : gmap string val) (k : string) :
  prop_of (VObj fields ?? VObj ∅) k = read fields k.
Proof. reflexivity. Qed.

(** ** Props objects *)

Lemma foldr_delete_lookup {P : Type} (picked : list string) (m : gmap string P) (k : string) :
  foldr delete m picked !! k = if decide (k ∈ picked) then None else m !! k.
Proof.
  induction picked as [|k' picked IH]; simpl.
  - reflexivity.
  - destruct (decide (k' = k)) as [->|Hne].
    + rewrite lookup_delete_eq, decide_True by left. reflexivity.
    + rewrite lookup_delete_ne, IH by assumption.
      destruct (decide (k ∈ picked)) as [Hin|Hout].
      * rewrite decide_True by (right; assumption). reflexivity.
      * rewrite decide_False; [reflexivity|].
        intros Hin. apply elem_of_cons in Hin as [->|Hin]; [apply Hne|apply Hout]; done.
Qed.

Section jsx.
Context {P : Type}.
Implicit Types (attrs : list (attr P)) (a : attr P) (k : string).

Lemma merge_attrs_snoc attrs a :
  merge_attrs (attrs ++ [a]) =
  match a with
  | Spread bag => bag ∪ merge_attrs attrs
  | Attr k v => <[k := v]> (merge_attrs attrs)
  end.
Proof. unfold merge_attrs. rewrite foldl_snoc. reflexivity. Qed.

Lemma merge_attrs_lookup attrs k :
  merge_attrs attrs !! k = last_binding k (reverse attrs).
Proof.
  induction attrs as [|a attrs IH] using rev_ind.
  - apply lookup_empty.
  - rewrite reverse_snoc, merge_attrs_snoc.
    destruct a as [bag|k' v]; simpl.
    + rewrite lookup_union, IH.
      destruct (bag !! k), (last_binding k (reverse attrs)); reflexivity.
    + destruct (String.eqb_spec k' k) as [->|Hne].
      * apply lookup_insert_eq.
      * rewrite lookup_insert_ne by assumption. apply IH.
Qed.

(** A name that is not reserved is bound in the props as in the
    attributes. *)
Lemma jsx_props_lookup attrs k :
  k ∉ RESERVED_PROPS → jsx_props attrs !! k = last_binding k (reverse attrs).
Proof.
  intros Hk. unfold jsx_props.
  rewrite foldr_delete_lookup, decide_False by assumption.
  apply merge_attrs_lookup.
Qed.

(** A reserved name is no prop, whatever the attributes say. *)
Lemma jsx_props_reserved attrs k :
  k ∈ RESERVED_PROPS → jsx_props attrs !! k = None.
Proof.
  intros Hk. unfold jsx_props.
  rewrite foldr_delete_lookup, decide_True by assumption. reflexivity.
Qed.
End jsx.

Lemma rest_of_lookup (picked : list string) (m : gmap string val) (k : string) :
  rest_of picked m !! k = if decide (k ∈ picked) then None else m !! k.
Proof. apply foldr_delete_lookup. Qed.

(** Names that are literally different from the reserved ones. *)
Ltac unreserved := by apply (bool_decide_unpack _).

(** ** The rendered dropdown and its text input *)

Section component.
Variable form : gmap string val → RHF.UseControllerReturn.
Variable props : gmap string val.

Local Abbreviation config := (read props "config").
Local Abbreviation muiProps := (read props "muiProps").
Local Abbreviation autocompleteProps := (prop_of (muiProps ?? VObj ∅) "autocompleteProps").
Local Abbreviation textFieldProps := (prop_of (muiProps ?? VObj ∅) "textFieldProps").
Local Abbreviation handles := (form (rest_of ["muiProps"; "config"] props)).
Local Abbreviation field := (RHF.field handles).
Local Abbreviation fieldState := (RHF.fieldState handles).

(** Every prop of the rendered dropdown, read off the attribute list from
    its end. *)
Lemma dropdown_lookup (k : string) :
  k ∉ RESERVED_PROPS →
  eprops (render form (MuiAutocomplete props)) !! k =
  last_binding k
    [ Attr "renderInput" (Closure (renderInput textFieldProps config field fieldState));
      Attr "onBlur" (Plain (RHF.onBlur field));
      Attr "onChange" (Closure (onChange config field));
      Attr "getOptionLabel" (Closure getOptionLabel);
      Attr "options" (Plain (autocompleteProps?."options" ?? VArr []));
      Attr "id" (Plain (autocompleteProps?."id"));
      Spread (Plain <$> own autocompleteProps) ].
Proof. exact (jsx_props_lookup _ k). Qed.

Lemma dropdown_reserved (k : string) :
  k ∈ RESERVED_PROPS → eprops (render form (MuiAutocomplete props)) !! k = None.
Proof. exact (jsx_props_reserved _ k). Qed.

Lemma dropdown_component :
  component (render form (MuiAutocomplete props)) = Autocomplete.
Proof. reflexivity. Qed.

(** The dropdown always gets an input renderer, and the renderer always
    produces a text input. *)
Lemma input_rendered (args : list val) :
  fire (render form (MuiAutocomplete props)) "renderInput" args =
  renderInput textFieldProps config field fieldState args.
Proof. unfold fire. rewrite dropdown_lookup by unreserved. reflexivity. Qed.

(** Every prop of the text input, read off its attribute list from the
    end. *)
Lemma input_lookup (args : list val) :
  ∃ tf, fire (render form (MuiAutocomplete props)) "renderInput" args
        = Renders TextField tf
      ∧ (∀ k, k ∉ RESERVED_PROPS →
              tf !! k =
              last_binding k
                [ Attr "helperText"
                       (js_and (config?."displayErrorMessage")
                               (RHF.error fieldState?."message"));
                  Attr "error" (to_bool (RHF.error fieldState));
                  Attr "value" (RHF.value field);
                  Attr "name" (RHF.name field);
                  Attr "inputRef" (RHF.ref field);
                  Spread (own (arg 0 args));
                  Spread (own textFieldProps) ])
      ∧ (∀ k, k ∈ RESERVED_PROPS → tf !! k = None).
Proof.
  rewrite input_rendered. unfold renderInput.
  eexists. split; [reflexivity|]. split.
  - intros k. exact (jsx_props_lookup _ k).
  - intros k. exact (jsx_props_reserved _ k).
Qed.

(** The selection-change handler, whatever the caller put in the dropdown
    settings. *)
Lemma change_fired (args : list val) :
  fire (render form (MuiAutocomplete props)) "onChange" args =
  Calls (RHF.onChange field)
        [cond (config?."manageWithLabel") (arg 1 args?."label") (arg 1 args)].
Proof. unfold fire. rewrite dropdown_lookup by unreserved. reflexivity. Qed.

Lemma registered :
  registrations form (MuiAutocomplete props) = [rest_of ["muiProps"; "config"] props].
Proof. reflexivity. Qed.

End component.

(** ** Selection changes *)

(** C1, as stated, does not hold: with [manageWithLabel] on, clearing the
    selection hands the dropdown's [null] to [value?.label], and the change
    notifier of the field is called with [undefined]. *)
Lemma clearing_in_label_mode_notifies_undefined :
  fire (render (film_form (VStr "The Matrix") VUndefined) (MuiAutocomplete label_props))
       "onChange" [VRef "event"; VNull; VStr "clear"]
  = Calls (VRef "field.onChange") [VUndefined].
Proof. vm_compute. reflexivity. Qed.

(** C1, amended: clearing the selection (the dropdown reports [null] as the
    new value, followed by the reason of the change) calls the change
    notifier of the field with [null] when [manageWithLabel] is unset or
    false, and with [undefined] when [manageWithLabel] is true. *)
Theorem clearing_notifies
    (form : gmap string val → RHF.UseControllerReturn) (props : gmap string val)
    (event : val) (more : list val) :
  let flag := read props "config"?."manageWithLabel" in
  let notifier := RHF.onChange (RHF.field (form (rest_of ["muiProps"; "config"] props))) in
  (flag = VUndefined ∨ flag = VBool false →
   fire (render form (MuiAutocomplete props)) "onChange" (event :: VNull :: more)
   = Calls notifier [VNull])
  ∧ (flag = VBool true →
     fire (render form (MuiAutocomplete props)) "onChange" (event :: VNull :: more)
     = Calls notifier [VUndefined]).
Proof.
  intros flag notifier. split.
  - intros Hflag. rewrite change_fired. fold flag.
    destruct Hflag as [-> | ->]; reflexivity.
  - intros Hflag. rewrite change_fired. fold flag. rewrite Hflag. reflexivity.
Qed.

Lemma clearing_notifies_witness :
  fire (render (film_form (VStr "The Matrix") VUndefined) (MuiAutocomplete film_props))
       "onChange" [VRef "event"; VNull; VStr "clear"]
  = Calls (VRef "field.onChange") [VNull]
  ∧ fire (render (film_form (VStr "The Matrix") VUndefined) (MuiAutocomplete label_props))
         "onChange" [VRef "event"; VNull; VStr "clear"]
    = Calls (VRef "field.onChange") [VUndefined].
Proof.
  split.
  - apply (proj1 (clearing_notifies (film_form (VStr "The Matrix") VUndefined)
                    film_props (VRef "event") [VStr "clear"])).
    left. reflexivity.
  - apply (proj2 (clearing_notifies (film_form (VStr "The Matrix") VUndefined)
                    label_props (VRef "event") [VStr "clear"])).
    reflexivity.
Defined.

(** C3: when an Option [o] is selected, the selection-change handler calls
    the change notifier of the field with the string [o.label] if
    [manageWithLabel] is true, and with [o] itself if [manageWithLabel] is
    unset or false. *)
Theorem selection_notifies
    (form : gmap string val → RHF.UseControllerReturn) (props : gmap string val)
    (event : val) (o : gmap string val) (label : string) (more : list val) :
  o !! "label" = Some (VStr label) →
  let flag := read props "config"?."manageWithLabel" in
  let notifier := RHF.onChange (RHF.field (form (rest_of ["muiProps"; "config"] props))) in
  (flag = VBool true →
   fire (render form (MuiAutocomplete props)) "onChange" (event :: VObj o :: more)
   = Calls notifier [VStr label])
  ∧ (flag = VUndefined ∨ flag = VBool false →
     fire (render form (MuiAutocomplete props)) "onChange" (event :: VObj o :: more)
     = Calls notifier [VObj o]).
Proof.
  intros Hlabel flag notifier.
  assert (Hread : VObj o?."label" = VStr label).
  { rewrite opt_get_object. apply read_Some, Hlabel. }
  split; intros Hflag; rewrite change_fired; fold flag.
  - rewrite Hflag. change (arg 1 (event :: VObj o :: more)) with (VObj o).
    rewrite Hread. reflexivity.
  - destruct Hflag as [-> | ->]; reflexivity.
Qed.

Lemma selection_notifies_witness :
  fire (render (film_form VNull VUndefined) (MuiAutocomplete label_props))
       "onChange" [VRef "event"; VObj the_matrix; VStr "selectOption"]
  = Calls (VRef "field.onChange") [VStr "The Matrix"]
  ∧ fire (render (film_form VNull VUndefined) (MuiAutocomplete film_props))
         "onChange" [VRef "event"; VObj the_matrix; VStr "selectOption"]
    = Calls (VRef "field.onChange") [VObj the_matrix].
Proof.
  split.
  - apply (proj1 (selection_notifies (film_form VNull VUndefined) label_props
                    (VRef "event") the_matrix "The Matrix" [VStr "selectOption"] eq_refl)).
    reflexivity.
  - apply (proj2 (selection_notifies (film_form VNull VUndefined) film_props
                    (VRef "event") the_matrix "The Matrix" [VStr "selectOption"] eq_refl)).
    left. reflexivity.
Defined.

(** ** The text input *)

(** An attribute of another name does not bind [k]. *)
Lemma last_binding_skip {P : Type} (k k' : string) (v : P) (earlier : list (attr P)) :
  k ≠ k' → last_binding k (Attr k' v :: earlier) = last_binding k earlier.
Proof.
  intros Hne. cbn [last_binding].
  destruct (String.eqb_spec k' k) as [->|_]; [contradiction|reflexivity].
Qed.

(** What the component finds for a bag of settings under [muiProps]. *)
Lemma settings_given (props mui : gmap string val) (bag : string) :
  read props "muiProps" = VObj mui →
  prop_of (read props "muiProps" ?? VObj ∅) bag = read mui bag.
Proof. intros ->. reflexivity. Qed.

Lemma settings_missing (props : gmap string val) (bag : string) :
  nullish (read props "muiProps") = true
  ∨ (∃ mui, read props "muiProps" = VObj mui ∧ nullish (read mui bag) = true) →
  own (prop_of (read props "muiProps" ?? VObj ∅) bag) = ∅
  ∧ nullish (prop_of (read props "muiProps" ?? VObj ∅) bag) = true.
Proof.
  intros [Hnone | (mui & Hmui & Hnone)].
  - destruct (read props "muiProps"); try discriminate; split; reflexivity.
  - rewrite (settings_given _ _ _ Hmui).
    destruct (read mui bag); try discriminate; split; reflexivity.
Qed.

(** C2: the props of the text input are merged in three tiers.  The
    component's own bindings ([inputRef], [name], [value], [error],
    [helperText]) always win, whatever the caller and the dropdown give.
    Every other prop is the one computed by the dropdown if it computes one,
    and the caller's [textFieldProps] entry otherwise; without
    [textFieldProps] it is the dropdown's alone.  (The names React reserves
    are props of no element.)  In particular a caller's [label: "Film"],
    which the dropdown does not compute, is kept next to the field's
    [name: "film"]. *)
Theorem input_props_precedence
    (form : gmap string val → RHF.UseControllerReturn)
    (props params : gmap string val) :
  let handles := form (rest_of ["muiProps"; "config"] props) in
  let field := RHF.field handles in
  let error := RHF.error (RHF.fieldState handles) in
  ∃ tf,
    fire (render form (MuiAutocomplete props)) "renderInput" [VObj params]
    = Renders TextField tf
    ∧ tf !! "inputRef" = Some (RHF.ref field)
    ∧ tf !! "name" = Some (RHF.name field)
    ∧ tf !! "value" = Some (RHF.value field)
    ∧ tf !! "error" = Some (to_bool error)
    ∧ tf !! "helperText"
      = Some (js_and (read props "config"?."displayErrorMessage") (error?."message"))
    ∧ (∀ mui caller,
         read props "muiProps" = VObj mui →
         read mui "textFieldProps" = VObj caller →
         (∀ k, k ∉ ["inputRef"; "name"; "value"; "error"; "helperText"] →
               tf !! k = if decide (k ∈ RESERVED_PROPS) then None
                         else match params !! k with
                              | Some v => Some v
                              | None => caller !! k
                              end)
         ∧ (caller !! "label" = Some (VStr "Film") →
            params !! "label" = None →
            RHF.name field = VStr "film" →
            tf !! "label" = Some (VStr "Film") ∧ tf !! "name" = Some (VStr "film")))
    ∧ (nullish (read props "muiProps") = true
       ∨ (∃ mui, read props "muiProps" = VObj mui
                 ∧ nullish (read mui "textFieldProps") = true) →
       ∀ k, k ∉ ["inputRef"; "name"; "value"; "error"; "helperText"] →
            tf !! k = if decide (k ∈ RESERVED_PROPS) then None else params !! k).
Proof.
  intros handles field error.
  destruct (input_lookup form props [VObj params]) as (tf & Hfire & Htf & Hreserved).
  exists tf.
  split; [exact Hfire|].
  do 5 (split; [rewrite Htf by unreserved; reflexivity|]).
  split.
  - intros mui caller Hmui Hcaller.
    assert (Hrest : ∀ k, k ∉ ["inputRef"; "name"; "value"; "error"; "helperText"] →
              tf !! k = if decide (k ∈ RESERVED_PROPS) then None
                        else match params !! k with
                             | Some v => Some v
                             | None => caller !! k
                             end).
    { intros k Hk. destruct (decide (k ∈ RESERVED_PROPS)) as [Hin|Hout].
      - apply Hreserved, Hin.
      - rewrite Htf by assumption.
        rewrite (settings_given _ _ _ Hmui), Hcaller.
        do 5 (rewrite last_binding_skip by (intros ->; apply Hk; repeat constructor)).
        simpl. destruct (params !! k), (caller !! k); reflexivity. }
    split; [exact Hrest|].
    intros Hlabel Hnone Hname. split.
    + rewrite Hrest by unreserved. rewrite decide_False by unreserved.
      rewrite Hnone. exact Hlabel.
    + rewrite Htf by unreserved. cbn [last_binding String.eqb Ascii.eqb Bool.eqb].
      f_equal. exact Hname.
  - intros Hmissing k Hk.
    destruct (settings_missing props "textFieldProps" Hmissing) as [Hbag _].
    destruct (decide (k ∈ RESERVED_PROPS)) as [Hin|Hout].
    + apply Hreserved, Hin.
    + rewrite Htf by assumption. rewrite Hbag.
      do 5 (rewrite last_binding_skip by (intros ->; apply Hk; repeat constructor)).
      simpl. destruct (params !! k); reflexivity.
Qed.

Lemma input_props_precedence_witness :
  ∃ tf,
    fire (render (film_form VNull VUndefined)
            (MuiAutocomplete
               (<["muiProps" := VObj {[ "textFieldProps" := VObj {[ "label" := VStr "Film" ]} ]}]>
                  film_settings)))
         "renderInput" [widget_params]
    = Renders TextField tf
    ∧ tf !! "label" = Some (VStr "Film")
    ∧ tf !! "name" = Some (VStr "film").
Proof.
  destruct (input_props_precedence (film_form VNull VUndefined)
              (<["muiProps" := VObj {[ "textFieldProps" := VObj {[ "label" := VStr "Film" ]} ]}]>
                 film_settings)
              (own widget_params))
    as (tf & Hfire & _ & _ & _ & _ & _ & Hcaller & _).
  exists tf. split; [exact Hfire|].
  apply (Hcaller {[ "textFieldProps" := VObj {[ "label" := VStr "Film" ]} ]}
                 {[ "label" := VStr "Film" ]}); reflexivity.
Defined.

(** C4: while the field is invalid with message [m], the helper text of the
    text input is [m] exactly when [displayErrorMessage] is true; when
    [displayErrorMessage] is false or unset the helper text is a falsy value
    that is neither the message nor the empty string. *)
Theorem helper_text_iff_displayed
    (form : gmap string val → RHF.UseControllerReturn) (props : gmap string val)
    (params : val) (e : gmap string val) (m : string) :
  RHF.error (RHF.fieldState (form (rest_of ["muiProps"; "config"] props))) = VObj e →
  e !! "message" = Some (VStr m) →
  let flag := read props "config"?."displayErrorMessage" in
  flag = VBool true ∨ flag = VBool false ∨ flag = VUndefined →
  ∃ tf helperText,
    fire (render form (MuiAutocomplete props)) "renderInput" [params]
    = Renders TextField tf
    ∧ tf !! "helperText" = Some helperText
    ∧ (helperText = VStr m ↔ flag = VBool true)
    ∧ (flag ≠ VBool true →
       truthy helperText = false ∧ helperText ≠ VStr m ∧ helperText ≠ VStr "").
Proof.
  intros Herror Hmessage flag Hflag.
  destruct (input_lookup form props [params]) as (tf & Hfire & Htf & _).
  specialize (Htf "helperText" ltac:(unreserved)).
  cbn [last_binding String.eqb Ascii.eqb Bool.eqb] in Htf.
  fold flag in Htf. rewrite Herror in Htf.
  assert (Hread : VObj e?."message" = VStr m).
  { rewrite opt_get_object. apply read_Some, Hmessage. }
  rewrite Hread in Htf.
  exists tf, (js_and flag (VStr m)).
  split; [exact Hfire|]. split; [exact Htf|].
  destruct Hflag as [-> | [-> | ->]]; simpl.
  - split; [tauto|]. intros Hne. contradiction.
  - split; [split; discriminate|]. intros _. repeat split; discriminate.
  - split; [split; discriminate|]. intros _. repeat split; discriminate.
Qed.

Lemma helper_text_iff_displayed_witness :
  ∃ tf helperText,
    fire (render (film_form VNull required_error) (MuiAutocomplete film_props))
         "renderInput" [widget_params]
    = Renders TextField tf
    ∧ tf !! "helperText" = Some helperText
    ∧ helperText = VStr "Required".
Proof.
  destruct (helper_text_iff_displayed (film_form VNull required_error) film_props
              widget_params (own required_error) "Required")
    as (tf & helperText & Hfire & Htf & Hiff & _);
    [reflexivity | reflexivity | left; reflexivity |].
  exists tf, helperText. split; [exact Hfire|]. split; [exact Htf|].
  apply Hiff. reflexivity.
Defined.

(** C5: the error flag of the text input is [true] whenever the validation
    state of the field holds an error and [false] when it holds none,
    whatever the configuration says about displaying the message. *)
Theorem error_flag_follows_validation
    (form : gmap string val → RHF.UseControllerReturn) (props : gmap string val)
    (params : val) :
  let error := RHF.error (RHF.fieldState (form (rest_of ["muiProps"; "config"] props))) in
  ∃ tf,
    fire (render form (MuiAutocomplete props)) "renderInput" [params]
    = Renders TextField tf
    ∧ (∀ e, error = VObj e → tf !! "error" = Some (VBool true))
    ∧ (error = VUndefined → tf !! "error" = Some (VBool false)).
Proof.
  intros error.
  destruct (input_lookup form props [params]) as (tf & Hfire & Htf & _).
  exists tf. split; [exact Hfire|].
  split; [intros e Herror | intros Herror];
    rewrite Htf by unreserved; cbn [last_binding String.eqb Ascii.eqb Bool.eqb];
    fold error; rewrite Herror; reflexivity.
Qed.

Lemma error_flag_follows_validation_witness :
  (∃ tf,
     fire (render (film_form VNull required_error) (MuiAutocomplete label_props))
          "renderInput" [widget_params]
     = Renders TextField tf
     ∧ tf !! "error" = Some (VBool true))
  ∧ (∃ tf,
       fire (render (film_form VNull VUndefined) (MuiAutocomplete film_props))
            "renderInput" [widget_params]
       = Renders TextField tf
       ∧ tf !! "error" = Some (VBool false)).
Proof.
  split.
  - destruct (error_flag_follows_validation (film_form VNull required_error)
                label_props widget_params) as (tf & Hfire & Hinvalid & _).
    exists tf. split; [exact Hfire|].
    apply (Hinvalid (own required_error)). reflexivity.
  - destruct (error_flag_follows_validation (film_form VNull VUndefined)
                film_props widget_params) as (tf & Hfire & _ & Hvalid).
    exists tf. split; [exact Hfire|].
    apply Hvalid. reflexivity.
Defined.

(** ** The dropdown *)

(** C6: when the caller gives no dropdown settings, or dropdown settings
    without an options list, the dropdown is rendered with the empty
    sequence of options; an options list the caller gives is passed on as it
    is. *)
Theorem options_default_empty
    (form : gmap string val → RHF.UseControllerReturn) (props : gmap string val) :
  let options := eprops (render form (MuiAutocomplete props)) !! "options" in
  (props !! "muiProps" = None → options = Some (Plain (VArr [])))
  ∧ (∀ mui, props !! "muiProps" = Some (VObj mui) →
            mui !! "autocompleteProps" = None →
            options = Some (Plain (VArr [])))
  ∧ (∀ mui settings, props !! "muiProps" = Some (VObj mui) →
                     mui !! "autocompleteProps" = Some (VObj settings) →
                     settings !! "options" = None →
                     options = Some (Plain (VArr [])))
  ∧ (∀ mui settings items, props !! "muiProps" = Some (VObj mui) →
                           mui !! "autocompleteProps" = Some (VObj settings) →
                           settings !! "options" = Some (VArr items) →
                           options = Some (Plain (VArr items))).
Proof.
  intros options. subst options. rewrite dropdown_lookup by unreserved.
  cbn [last_binding String.eqb Ascii.eqb Bool.eqb].
  repeat split.
  - intros Hmui. rewrite (read_None _ _ Hmui). reflexivity.
  - intros mui Hmui Hnone.
    rewrite (read_Some _ _ _ Hmui), prop_of_default_object, (read_None _ _ Hnone).
    reflexivity.
  - intros mui settings Hmui Hsome Hnone.
    rewrite (read_Some _ _ _ Hmui), prop_of_default_object, (read_Some _ _ _ Hsome).
    rewrite opt_get_object, (read_None _ _ Hnone). reflexivity.
  - intros mui settings items Hmui Hsome Hitems.
    rewrite (read_Some _ _ _ Hmui), prop_of_default_object, (read_Some _ _ _ Hsome).
    rewrite opt_get_object, (read_Some _ _ _ Hitems). reflexivity.
Qed.

Lemma options_default_empty_witness :
  eprops (render (film_form VNull VUndefined) (MuiAutocomplete film_settings)) !! "options"
  = Some (Plain (VArr []))
  ∧ eprops (render (film_form VNull VUndefined)
              (MuiAutocomplete (<["muiProps" := VObj ∅]> film_settings))) !! "options"
    = Some (Plain (VArr []))
  ∧ eprops (render (film_form VNull VUndefined)
              (MuiAutocomplete
                 (<["muiProps" := VObj {[ "autocompleteProps" := VObj ∅ ]}]> film_settings)))
      !! "options"
    = Some (Plain (VArr []))
  ∧ eprops (render (film_form VNull VUndefined) (MuiAutocomplete meddling_props)) !! "options"
    = Some (Plain (VArr film_options)).
Proof.
  split; [|split; [|split]].
  - apply (options_default_empty (film_form VNull VUndefined) film_settings).
    reflexivity.
  - apply (proj1 (proj2 (options_default_empty (film_form VNull VUndefined)
                           (<["muiProps" := VObj ∅]> film_settings))) ∅);
      reflexivity.
  - apply (proj1 (proj2 (proj2 (options_default_empty (film_form VNull VUndefined)
                                  (<["muiProps" := VObj {[ "autocompleteProps" := VObj ∅ ]}]>
                                     film_settings))))
             {[ "autocompleteProps" := VObj ∅ ]} ∅);
      reflexivity.
  - apply (proj2 (proj2 (proj2 (options_default_empty (film_form VNull VUndefined)
                                  meddling_props)))
             (own (read meddling_props "muiProps"))
             (own (prop_of (read meddling_props "muiProps") "autocompleteProps")));
      reflexivity.
Defined.

(** C7: the display-text extractor handed to the dropdown is always the
    function that reads the [label] of an Option, also when the caller's
    dropdown settings carry a [getOptionLabel] of their own. *)
Theorem option_label_forced
    (form : gmap string val → RHF.UseControllerReturn) (props : gmap string val) :
  eprops (render form (MuiAutocomplete props)) !! "getOptionLabel"
  = Some (Closure getOptionLabel)
  ∧ ∀ (o : gmap string val) (label : val),
      o !! "label" = Some label →
      fire (render form (MuiAutocomplete props)) "getOptionLabel" [VObj o]
      = Returns label.
Proof.
  assert (Hprop : eprops (render form (MuiAutocomplete props)) !! "getOptionLabel"
                  = Some (Closure getOptionLabel)).
  { rewrite dropdown_lookup by unreserved. reflexivity. }
  split; [exact Hprop|].
  intros o label Hlabel. unfold fire. rewrite Hprop.
  unfold invoke, getOptionLabel, arg. simpl. unfold read. rewrite Hlabel. reflexivity.
Qed.

Lemma option_label_forced_witness :
  fire (render (film_form VNull VUndefined) (MuiAutocomplete meddling_props))
       "getOptionLabel" [VObj the_matrix]
  = Returns (VStr "The Matrix").
Proof.
  apply (proj2 (option_label_forced (film_form VNull VUndefined) meddling_props)).
  reflexivity.
Defined.

(** C9: an [onChange] or [onBlur] in the caller's dropdown settings never
    reaches the dropdown.  Its selection-change handler is the component's
    own, which calls the change notifier of the field, and its blur handler
    is the blur notifier of the field. *)
Theorem caller_handlers_discarded
    (form : gmap string val → RHF.UseControllerReturn) (props : gmap string val) :
  let field := RHF.field (form (rest_of ["muiProps"; "config"] props)) in
  let dropdown := render form (MuiAutocomplete props) in
  eprops dropdown !! "onChange" = Some (Closure (onChange (read props "config") field))
  ∧ eprops dropdown !! "onBlur" = Some (Plain (RHF.onBlur field))
  ∧ (∀ event value more,
       fire dropdown "onChange" (event :: value :: more)
       = Calls (RHF.onChange field)
               [cond (read props "config"?."manageWithLabel") (value?."label") value])
  ∧ (∀ args, fire dropdown "onBlur" args = Calls (RHF.onBlur field) args).
Proof.
  intros field dropdown. subst dropdown.
  split; [rewrite dropdown_lookup by unreserved; reflexivity|].
  split; [rewrite dropdown_lookup by unreserved; reflexivity|].
  split.
  - intros event value more. apply change_fired.
  - intros args. unfold fire. rewrite dropdown_lookup by unreserved. reflexivity.
Qed.

Lemma caller_handlers_discarded_witness :
  fire (render (film_form VNull VUndefined) (MuiAutocomplete meddling_props))
       "onChange" [VRef "event"; VObj the_matrix; VStr "selectOption"]
  = Calls (VRef "field.onChange") [VObj the_matrix]
  ∧ fire (render (film_form VNull VUndefined) (MuiAutocomplete meddling_props))
         "onBlur" [VRef "event"]
    = Calls (VRef "field.onBlur") [VRef "event"].
Proof.
  destruct (caller_handlers_discarded (film_form VNull VUndefined) meddling_props)
    as (_ & _ & Hchange & Hblur).
  split; [apply Hchange | apply Hblur].
Defined.

(** ** Registration with the form controller *)

(** C8: the component registers once, and the settings it registers with
    are the props without [config] and [muiProps]: every other property,
    the field name, the form control and the validation rules among them, is
    there with the caller's value, and nothing else is. *)
Theorem controller_settings_passed
    (form : gmap string val → RHF.UseControllerReturn) (props : gmap string val) :
  ∃ settings,
    registrations form (MuiAutocomplete props) = [settings]
    ∧ (∀ k, settings !! k =
            if decide (k = "config" ∨ k = "muiProps") then None else props !! k)
    ∧ settings !! "name" = props !! "name"
    ∧ settings !! "control" = props !! "control"
    ∧ settings !! "rules" = props !! "rules".
Proof.
  exists (rest_of ["muiProps"; "config"] props).
  split; [apply registered|].
  assert (Hlookup : ∀ k, rest_of ["muiProps"; "config"] props !! k =
            if decide (k = "config" ∨ k = "muiProps") then None else props !! k).
  { intros k. rewrite rest_of_lookup.
    destruct (decide (k ∈ ["muiProps"; "config"])) as [Hin|Hout];
      destruct (decide (k = "config" ∨ k = "muiProps")) as [Heq|Hne];
      try reflexivity.
    - exfalso. apply Hne.
      apply elem_of_cons in Hin as [->|Hin]; [right; reflexivity|].
      apply list_elem_of_singleton in Hin as ->. left; reflexivity.
    - exfalso. apply Hout.
      destruct Heq as [->| ->]; repeat constructor. }
  split; [exact Hlookup|].
  repeat split; rewrite Hlookup; reflexivity.
Qed.

(** * Further properties of the component *)

(** ** Updating and reading props objects *)

Lemma read_insert_eq (m : gmap string val) (k : string) (v : val) :
  read (<[k := v]> m) k = v.
Proof. unfold read. rewrite lookup_insert_eq. reflexivity. Qed.

Lemma read_insert_ne (m : gmap string val) (k k' : string) (v : val) :
  k ≠ k' → read (<[k := v]> m) k' = read m k'.
Proof. intros Hne. unfold read. rewrite lookup_insert_ne by assumption. reflexivity. Qed.

(** Two objects that differ only on picked properties have the same rest. *)
Lemma rest_of_agree (picked : list string) (m1 m2 : gmap string val) :
  (∀ k, k ∉ picked → m1 !! k = m2 !! k) → rest_of picked m1 = rest_of picked m2.
Proof.
  intros Hagree. apply map_eq. intros k. rewrite !rest_of_lookup.
  destruct (decide (k ∈ picked)) as [_|Hout]; [reflexivity|apply Hagree, Hout].
Qed.

Lemma rest_of_insert_picked (picked : list string) (m : gmap string val)
    (k : string) (v : val) :
  k ∈ picked → rest_of picked (<[k := v]> m) = rest_of picked m.
Proof.
  intros Hin. apply rest_of_agree. intros k' Hout.
  apply lookup_insert_ne. intros ->. contradiction.
Qed.

(** The rendered dropdown, written out. *)
Lemma rendered_dropdown
    (form : gmap string val → RHF.UseControllerReturn) (props : gmap string val) :
  render form (MuiAutocomplete props) =
  let config := read props "config" in
  let autocompleteProps := prop_of (read props "muiProps" ?? VObj ∅) "autocompleteProps" in
  let textFieldProps := prop_of (read props "muiProps" ?? VObj ∅) "textFieldProps" in
  let handles := form (rest_of ["muiProps"; "config"] props) in
  Element Autocomplete
    (jsx_props
       [ Spread (Plain <$> own autocompleteProps);
         Attr "id" (Plain (autocompleteProps?."id"));
         Attr "options" (Plain (autocompleteProps?."options" ?? VArr []));
         Attr "getOptionLabel" (Closure getOptionLabel);
         Attr "onChange" (Closure (onChange config (RHF.field handles)));
         Attr "onBlur" (Plain (RHF.onBlur (RHF.field handles)));
         Attr "renderInput"
              (Closure (renderInput textFieldProps config (RHF.field handles)
                          (RHF.fieldState handles))) ]).
Proof. reflexivity. Qed.

(** ** What reaches the dropdown *)

(** X1: every dropdown setting of the caller other than [options],
    [getOptionLabel], [onChange], [onBlur], [renderInput] and the names
    React reserves reaches the dropdown with the caller's value; a name the
    caller does not set, and the component does not set either, is not a
    prop of the dropdown; [id] is a prop of the dropdown also when the
    caller gives none, with value [undefined]; and a reserved name is never
    a prop.  This holds with dropdown settings and without them. *)
Theorem dropdown_settings_passed
    (form : gmap string val → RHF.UseControllerReturn) (props : gmap string val) :
  let dropdown := eprops (render form (MuiAutocomplete props)) in
  (∀ k, k ∈ RESERVED_PROPS → dropdown !! k = None)
  ∧ (∀ mui settings,
       read props "muiProps" = VObj mui →
       read mui "autocompleteProps" = VObj settings →
       (∀ k v, k ∉ ["options"; "getOptionLabel"; "onChange"; "onBlur"; "renderInput"] →
               k ∉ RESERVED_PROPS →
               settings !! k = Some v → dropdown !! k = Some (Plain v))
       ∧ (∀ k, k ∉ ["id"; "options"; "getOptionLabel"; "onChange"; "onBlur"; "renderInput"] →
               settings !! k = None → dropdown !! k = None)
       ∧ (settings !! "id" = None → dropdown !! "id" = Some (Plain VUndefined)))
  ∧ (nullish (read props "muiProps") = true
     ∨ (∃ mui, read props "muiProps" = VObj mui
               ∧ nullish (read mui "autocompleteProps") = true) →
     (∀ k, k ∉ ["id"; "options"; "getOptionLabel"; "onChange"; "onBlur"; "renderInput"] →
           dropdown !! k = None)
     ∧ dropdown !! "id" = Some (Plain VUndefined)).
Proof.
  intros dropdown. subst dropdown.
  split; [intros k Hk; apply dropdown_reserved, Hk|].
  split.
  - intros mui settings Hmui Hsettings.
    assert (Hlookup : ∀ k,
              k ∉ ["options"; "getOptionLabel"; "onChange"; "onBlur"; "renderInput"] →
              k ∉ RESERVED_PROPS →
              eprops (render form (MuiAutocomplete props)) !! k =
              if decide (k = "id") then Some (Plain (read settings "id"))
              else Plain <$> settings !! k).
    { intros k Hk Hout. rewrite dropdown_lookup by assumption.
      rewrite !(settings_given _ _ "autocompleteProps" Hmui), Hsettings.
      do 5 (rewrite last_binding_skip by (intros ->; apply Hk; repeat constructor)).
      destruct (decide (k = "id")) as [->|Hid].
      - reflexivity.
      - rewrite last_binding_skip by assumption. cbn [last_binding own].
        rewrite lookup_fmap. destruct (settings !! k); reflexivity. }
    split; [|split].
    + intros k v Hk Hout Hv. rewrite Hlookup by assumption.
      destruct (decide (k = "id")) as [->|_].
      * rewrite (read_Some _ _ _ Hv). reflexivity.
      * rewrite Hv. reflexivity.
    + intros k Hk Hnone.
      destruct (decide (k ∈ RESERVED_PROPS)) as [Hin|Hout];
        [apply dropdown_reserved, Hin|].
      rewrite Hlookup; [|intros Hin; apply Hk; right; exact Hin|assumption].
      rewrite decide_False; [rewrite Hnone; reflexivity|].
      intros ->. apply Hk. constructor.
    + intros Hnone. rewrite Hlookup by unreserved.
      rewrite (read_None _ _ Hnone). reflexivity.
  - intros Hmissing.
    destruct (settings_missing props "autocompleteProps" Hmissing) as [Hbag Hnullish].
    split.
    + intros k Hk.
      destruct (decide (k ∈ RESERVED_PROPS)) as [Hin|Hout];
        [apply dropdown_reserved, Hin|].
      rewrite dropdown_lookup by assumption.
      do 6 (rewrite last_binding_skip by (intros ->; apply Hk; repeat constructor)).
      rewrite Hbag. reflexivity.
    + rewrite dropdown_lookup by unreserved.
      cbn [last_binding String.eqb Ascii.eqb Bool.eqb].
      unfold opt_get. rewrite Hnullish. reflexivity.
Qed.

Lemma dropdown_settings_passed_witness :
  eprops (render (film_form VNull VUndefined) (MuiAutocomplete film_props)) !! "disablePortal"
  = Some (Plain (VBool true))
  ∧ eprops (render (film_form VNull VUndefined) (MuiAutocomplete film_props)) !! "value"
    = None
  ∧ eprops (render (film_form VNull VUndefined) (MuiAutocomplete film_props)) !! "id"
    = Some (Plain VUndefined)
  ∧ eprops (render (film_form VNull VUndefined) (MuiAutocomplete label_props)) !! "value"
    = None.
Proof.
  destruct (dropdown_settings_passed (film_form VNull VUndefined) film_props)
    as (_ & Hgiven & _).
  destruct (Hgiven (own (read film_props "muiProps"))
              (own (prop_of (read film_props "muiProps") "autocompleteProps")))
    as (Hpassed & Habsent & Hid); [reflexivity|reflexivity|].
  split; [|split; [|split]].
  - apply Hpassed; [unreserved|unreserved|reflexivity].
  - apply Habsent; [unreserved|reflexivity].
  - apply Hid. reflexivity.
  - apply (proj2 (proj2 (dropdown_settings_passed (film_form VNull VUndefined) label_props)));
      [left; reflexivity|unreserved].
Defined.

(** X2: the current value of the field is bound to the text input and not
    to the dropdown.  The [value] of the text input is the field's value;
    the dropdown has a [value] prop only if the caller's dropdown settings
    carry one, and then it is the caller's: without [muiProps], and with
    [muiProps] that carry no dropdown settings, it has none. *)
Theorem field_value_bound_to_input_only
    (form : gmap string val → RHF.UseControllerReturn) (props : gmap string val)
    (params : val) :
  let current := RHF.value (RHF.field (form (rest_of ["muiProps"; "config"] props))) in
  let dropdown := render form (MuiAutocomplete props) in
  (∃ tf, fire dropdown "renderInput" [params] = Renders TextField tf
         ∧ tf !! "value" = Some current)
  ∧ (nullish (read props "muiProps") = true
     ∨ (∃ mui, read props "muiProps" = VObj mui
               ∧ nullish (read mui "autocompleteProps") = true) →
     eprops dropdown !! "value" = None)
  ∧ (∀ mui settings,
       read props "muiProps" = VObj mui →
       read mui "autocompleteProps" = VObj settings →
       eprops dropdown !! "value" = Plain <$> settings !! "value").
Proof.
  intros current dropdown. subst dropdown. split; [|split].
  - destruct (input_lookup form props [params]) as (tf & Hfire & Htf & _).
    exists tf. split; [exact Hfire|]. rewrite Htf by unreserved. reflexivity.
  - intros Hmissing.
    destruct (settings_missing props "autocompleteProps" Hmissing) as [Hbag _].
    rewrite dropdown_lookup by unreserved. rewrite Hbag. reflexivity.
  - intros mui settings Hmui Hsettings.
    rewrite dropdown_lookup by unreserved.
    rewrite !(settings_given _ _ "autocompleteProps" Hmui), Hsettings.
    cbn [last_binding String.eqb Ascii.eqb Bool.eqb own].
    rewrite lookup_fmap. destruct (settings !! "value"); reflexivity.
Qed.

Lemma field_value_bound_to_input_only_witness :
  eprops (render (film_form (VStr "The Matrix") VUndefined) (MuiAutocomplete film_settings))
    !! "value" = None
  ∧ eprops (render (film_form (VStr "The Matrix") VUndefined)
              (MuiAutocomplete
                 (<["muiProps" := VObj {[ "textFieldProps" := VObj {[ "label" := VStr "Film" ]} ]}]>
                    film_settings)))
      !! "value" = None
  ∧ eprops (render (film_form (VStr "The Matrix") VUndefined) (MuiAutocomplete film_props))
      !! "value" = None.
Proof.
  split; [|split].
  - apply (proj1 (proj2 (field_value_bound_to_input_only
                           (film_form (VStr "The Matrix") VUndefined)
                           film_settings widget_params))).
    left. reflexivity.
  - apply (proj1 (proj2 (field_value_bound_to_input_only
                           (film_form (VStr "The Matrix") VUndefined)
                           (<["muiProps" :=
                                VObj {[ "textFieldProps" := VObj {[ "label" := VStr "Film" ]} ]}]>
                              film_settings)
                           widget_params))).
    right. exists {[ "textFieldProps" := VObj {[ "label" := VStr "Film" ]} ]}.
    split; reflexivity.
  - apply (proj2 (proj2 (field_value_bound_to_input_only
                           (film_form (VStr "The Matrix") VUndefined)
                           film_props widget_params))
             (own (read film_props "muiProps"))
             (own (prop_of (read film_props "muiProps") "autocompleteProps")));
      reflexivity.
Defined.

(** ** The text input, continued *)

(** X3: when the caller gives no text-input settings (no [muiProps], or
    [muiProps] without [textFieldProps]), every prop of the text input other
    than the component's five bindings is the one the dropdown passes to the
    input renderer, the names React reserves apart, which are no props; and
    when the renderer is called with no argument at all, the five bindings
    are the only props. *)
Theorem input_without_caller_settings
    (form : gmap string val → RHF.UseControllerReturn)
    (props params : gmap string val) :
  props !! "muiProps" = None
  ∨ (∃ mui, props !! "muiProps" = Some (VObj mui) ∧ mui !! "textFieldProps" = None) →
  let dropdown := render form (MuiAutocomplete props) in
  (∃ tf, fire dropdown "renderInput" [VObj params] = Renders TextField tf
         ∧ ∀ k, k ∉ ["inputRef"; "name"; "value"; "error"; "helperText"] →
                tf !! k = if decide (k ∈ RESERVED_PROPS) then None else params !! k)
  ∧ (∃ tf, fire dropdown "renderInput" [] = Renders TextField tf
           ∧ ∀ k, k ∉ ["inputRef"; "name"; "value"; "error"; "helperText"] →
                  tf !! k = None).
Proof.
  intros Hcaller dropdown. subst dropdown.
  assert (Hbag : prop_of (read props "muiProps" ?? VObj ∅) "textFieldProps" = VUndefined).
  { destruct Hcaller as [Hnone | (mui & Hmui & Hnone)].
    - rewrite (read_None _ _ Hnone). reflexivity.
    - rewrite (read_Some _ _ _ Hmui), prop_of_default_object.
      apply read_None, Hnone. }
  split.
  - destruct (input_lookup form props [VObj params]) as (tf & Hfire & Htf & Hreserved).
    exists tf. split; [exact Hfire|]. intros k Hk.
    destruct (decide (k ∈ RESERVED_PROPS)) as [Hin|Hout]; [apply Hreserved, Hin|].
    rewrite Htf by assumption. rewrite Hbag.
    do 5 (rewrite last_binding_skip by (intros ->; apply Hk; repeat constructor)).
    cbn [last_binding own arg]. simpl. destruct (params !! k); reflexivity.
  - destruct (input_lookup form props []) as (tf & Hfire & Htf & Hreserved).
    exists tf. split; [exact Hfire|]. intros k Hk.
    destruct (decide (k ∈ RESERVED_PROPS)) as [Hin|Hout]; [apply Hreserved, Hin|].
    rewrite Htf by assumption. rewrite Hbag.
    do 5 (rewrite last_binding_skip by (intros ->; apply Hk; repeat constructor)).
    reflexivity.
Qed.

Lemma input_without_caller_settings_witness :
  ∃ tf, fire (render (film_form VNull VUndefined) (MuiAutocomplete film_settings))
             "renderInput" [widget_params]
        = Renders TextField tf
        ∧ tf !! "fullWidth" = Some (VBool true)
        ∧ tf !! "label" = None.
Proof.
  destruct (input_without_caller_settings (film_form VNull VUndefined) film_settings
              (own widget_params))
    as ((tf & Hfire & Htf) & _); [left; reflexivity|].
  exists tf. split; [exact Hfire|].
  split; rewrite Htf by unreserved; reflexivity.
Defined.

(** X4: the text input never carries a helper text without being flagged
    as in error: whatever the props and the handles are, a truthy
    [helperText] comes with [error] true.  In particular a field without a
    validation error has a falsy helper text, also when
    [displayErrorMessage] is true. *)
Theorem helper_text_implies_error_flag
    (form : gmap string val → RHF.UseControllerReturn) (props : gmap string val)
    (params : val) :
  ∃ tf flag helperText,
    fire (render form (MuiAutocomplete props)) "renderInput" [params]
    = Renders TextField tf
    ∧ tf !! "error" = Some (VBool flag)
    ∧ tf !! "helperText" = Some helperText
    ∧ (truthy helperText = true → flag = true)
    ∧ (RHF.error (RHF.fieldState (form (rest_of ["muiProps"; "config"] props))) = VUndefined →
       flag = false ∧ truthy helperText = false).
Proof.
  destruct (input_lookup form props [params]) as (tf & Hfire & Htf & _).
  set (error := RHF.error (RHF.fieldState (form (rest_of ["muiProps"; "config"] props)))) in *.
  set (display := read props "config"?."displayErrorMessage") in *.
  exists tf, (truthy error), (js_and display (error?."message")).
  split; [exact Hfire|].
  split; [rewrite Htf by unreserved; reflexivity|].
  split; [rewrite Htf by unreserved; reflexivity|].
  assert (Himplies : truthy (js_and display (error?."message")) = true → truthy error = true).
  { unfold js_and. destruct (truthy display) eqn:Hdisplay.
    - destruct error; simpl; intros Htruthy; try discriminate; reflexivity.
    - intros Htruthy. rewrite Hdisplay in Htruthy. discriminate. }
  split; [exact Himplies|].
  intros Herror. rewrite Herror in *. split; [reflexivity|].
  destruct (truthy (js_and display (VUndefined?."message"))) eqn:Htruthy; [|reflexivity].
  specialize (Himplies eq_refl). discriminate.
Qed.

Lemma helper_text_implies_error_flag_witness :
  ∃ tf flag helperText,
    fire (render (film_form VNull VUndefined) (MuiAutocomplete film_props))
         "renderInput" [widget_params]
    = Renders TextField tf
    ∧ tf !! "error" = Some (VBool flag)
    ∧ tf !! "helperText" = Some helperText
    ∧ flag = false ∧ truthy helperText = false.
Proof.
  destruct (helper_text_implies_error_flag (film_form VNull VUndefined) film_props
              widget_params)
    as (tf & flag & helperText & Hfire & Hflag & Htext & _ & Hvalid).
  exists tf, flag, helperText.
  split; [exact Hfire|]. split; [exact Hflag|]. split; [exact Htext|].
  apply Hvalid. reflexivity.
Defined.

(** ** Registration and the shape of the props *)

(** X5: what the component registers with the form controller does not
    depend on [config] or [muiProps]: two props objects that agree on every
    other property make the same registration and so get the same
    handles. *)
Theorem registration_ignores_config_and_muiProps
    (form : gmap string val → RHF.UseControllerReturn) (props1 props2 : gmap string val) :
  (∀ k, k ≠ "config" → k ≠ "muiProps" → props1 !! k = props2 !! k) →
  registrations form (MuiAutocomplete props1) = registrations form (MuiAutocomplete props2)
  ∧ form (rest_of ["muiProps"; "config"] props1) = form (rest_of ["muiProps"; "config"] props2).
Proof.
  intros Hagree.
  assert (Hrest : rest_of ["muiProps"; "config"] props1 = rest_of ["muiProps"; "config"] props2).
  { apply rest_of_agree. intros k Hk.
    apply Hagree; intros ->; apply Hk; repeat constructor. }
  rewrite !registered, Hrest. split; reflexivity.
Qed.

Lemma registration_ignores_config_and_muiProps_witness :
  registrations (film_form VNull VUndefined) (MuiAutocomplete film_props)
  = registrations (film_form VNull VUndefined) (MuiAutocomplete label_props).
Proof.
  apply (registration_ignores_config_and_muiProps (film_form VNull VUndefined)
           film_props label_props).
  intros k Hconfig Hmui. unfold film_props, label_props.
  rewrite !lookup_insert_ne by (intros Heq; symmetry in Heq; contradiction).
  reflexivity.
Defined.

(** X6: leaving [muiProps] out, passing an empty object for it, and passing
    [null] or [undefined] for it give the same rendering. *)
Theorem missing_muiProps_as_empty
    (form : gmap string val → RHF.UseControllerReturn) (props : gmap string val)
    (given : val) :
  props !! "muiProps" = None →
  given = VObj ∅ ∨ given = VNull ∨ given = VUndefined →
  render form (MuiAutocomplete (<["muiProps" := given]> props))
  = render form (MuiAutocomplete props).
Proof.
  intros Hnone Hgiven. rewrite !rendered_dropdown. cbv zeta.
  rewrite read_insert_eq, (read_insert_ne _ "muiProps" "config") by discriminate.
  rewrite (rest_of_insert_picked ["muiProps"; "config"]) by repeat constructor.
  rewrite (read_None _ _ Hnone).
  destruct Hgiven as [-> | [-> | ->]]; reflexivity.
Qed.

Lemma missing_muiProps_as_empty_witness :
  render (film_form VNull VUndefined) (MuiAutocomplete (<["muiProps" := VObj ∅]> label_props))
  = render (film_form VNull VUndefined) (MuiAutocomplete label_props).
Proof.
  apply (missing_muiProps_as_empty (film_form VNull VUndefined) label_props (VObj ∅)).
  - reflexivity.
  - left. reflexivity.
Defined.

(** ** Calls into the component *)

(** X7: the display-text extractor reads the label without a guard: called
    on [null], on [undefined] or with no argument it throws, and it throws
    in no other case; on an object without a [label] it returns
    [undefined].  The selection-change handler is guarded: whatever
    arguments it is called with, it does not throw and makes one call of the
    field's change notifier, with one argument. *)
Theorem option_label_throws_iff_nullish
    (form : gmap string val → RHF.UseControllerReturn) (props : gmap string val)
    (args : list val) :
  let dropdown := render form (MuiAutocomplete props) in
  (fire dropdown "getOptionLabel" args = Throws ↔ nullish (arg 0 args) = true)
  ∧ (∀ o, arg 0 args = VObj o → o !! "label" = None →
          fire dropdown "getOptionLabel" args = Returns VUndefined)
  ∧ (∃ a, fire dropdown "onChange" args
          = Calls (RHF.onChange (RHF.field (form (rest_of ["muiProps"; "config"] props)))) [a]).
Proof.
  intros dropdown. subst dropdown.
  assert (Hfire : fire (render form (MuiAutocomplete props)) "getOptionLabel" args
                  = getOptionLabel args).
  { unfold fire. rewrite dropdown_lookup by unreserved. reflexivity. }
  rewrite Hfire. unfold getOptionLabel. split; [|split].
  - destruct (nullish (arg 0 args)); split; intros H; try reflexivity; discriminate.
  - intros o Ho Hnone. rewrite Ho. simpl. rewrite (read_None _ _ Hnone). reflexivity.
  - eexists. apply change_fired.
Qed.

Lemma option_label_throws_iff_nullish_witness :
  fire (render (film_form VNull VUndefined) (MuiAutocomplete film_props))
       "getOptionLabel" [VNull]
  = Throws
  ∧ fire (render (film_form VNull VUndefined) (MuiAutocomplete film_props))
         "getOptionLabel" [VObj {[ "year" := VNum 1999 ]}]
    = Returns VUndefined.
Proof.
  split.
  - apply (proj1 (option_label_throws_iff_nullish (film_form VNull VUndefined)
                    film_props [VNull])).
    reflexivity.
  - apply (proj1 (proj2 (option_label_throws_iff_nullish (film_form VNull VUndefined)
                           film_props [VObj {[ "year" := VNum 1999 ]}]))
             {[ "year" := VNum 1999 ]});
      reflexivity.
Defined.

(** X8: [config] reaches the rendering only through the selection-change
    handler and the helper text.  Replacing [config] by any other value
    leaves every prop of the dropdown other than [onChange] and
    [renderInput] as it was, and every prop of the text input other than
    [helperText] as it was. *)
Theorem config_reaches_change_and_helper_text_only
    (form : gmap string val → RHF.UseControllerReturn) (props : gmap string val)
    (config1 config2 params : val) :
  let dropdown1 := render form (MuiAutocomplete (<["config" := config1]> props)) in
  let dropdown2 := render form (MuiAutocomplete (<["config" := config2]> props)) in
  (∀ k, k ≠ "onChange" → k ≠ "renderInput" →
        eprops dropdown1 !! k = eprops dropdown2 !! k)
  ∧ ∃ tf1 tf2,
      fire dropdown1 "renderInput" [params] = Renders TextField tf1
      ∧ fire dropdown2 "renderInput" [params] = Renders TextField tf2
      ∧ ∀ k, k ≠ "helperText" → tf1 !! k = tf2 !! k.
Proof.
  intros dropdown1 dropdown2. subst dropdown1 dropdown2.
  assert (Hmui : ∀ c, read (<["config" := c]> props) "muiProps" = read props "muiProps").
  { intros c. apply read_insert_ne. discriminate. }
  assert (Hrest : ∀ c, rest_of ["muiProps"; "config"] (<["config" := c]> props)
                       = rest_of ["muiProps"; "config"] props).
  { intros c. apply rest_of_insert_picked. repeat constructor. }
  split.
  - intros k Hchange Hinput.
    destruct (decide (k ∈ RESERVED_PROPS)) as [Hin|Hout];
      [rewrite !dropdown_reserved by assumption; reflexivity|].
    rewrite !dropdown_lookup by assumption. rewrite !Hmui, !Hrest.
    rewrite !(last_binding_skip k "renderInput") by assumption.
    cbn [last_binding].
    destruct (String.eqb_spec "onBlur" k) as [_|_]; [reflexivity|].
    destruct (String.eqb_spec "onChange" k) as [Heq|_]; [congruence|reflexivity].
  - destruct (input_lookup form (<["config" := config1]> props) [params])
      as (tf1 & Hfire1 & Htf1 & Hreserved1).
    destruct (input_lookup form (<["config" := config2]> props) [params])
      as (tf2 & Hfire2 & Htf2 & Hreserved2).
    exists tf1, tf2. split; [exact Hfire1|]. split; [exact Hfire2|].
    intros k Hk.
    destruct (decide (k ∈ RESERVED_PROPS)) as [Hin|Hout];
      [rewrite Hreserved1, Hreserved2 by assumption; reflexivity|].
    rewrite Htf1, Htf2 by assumption. rewrite !Hmui, !Hrest.
    rewrite !(last_binding_skip k "helperText") by assumption.
    reflexivity.
Qed.

Lemma config_reaches_change_and_helper_text_only_witness :
  eprops (render (film_form VNull required_error)
            (MuiAutocomplete (<["config" := VObj {[ "manageWithLabel" := VBool true ]}]>
                                film_props))) !! "options"
  = eprops (render (film_form VNull required_error)
              (MuiAutocomplete (<["config" := VUndefined]> film_props))) !! "options".
Proof.
  apply (proj1 (config_reaches_change_and_helper_text_only
                  (film_form VNull required_error) film_props
                  (VObj {[ "manageWithLabel" := VBool true ]}) VUndefined widget_params));
    discriminate.
Defined.

(** X9: the validation state reaches the rendering only through [error] and
    [helperText] of the text input.  Two form controllers that hand out the
    same field handle, whatever validation states they report, give the same
    dropdown props other than the input renderer, the same calls from the
    selection-change handler, and the same text-input props other than
    [error] and [helperText]. *)
Theorem validation_reaches_error_and_helper_text_only
    (form1 form2 : gmap string val → RHF.UseControllerReturn) (props : gmap string val)
    (params : val) :
  RHF.field (form1 (rest_of ["muiProps"; "config"] props))
  = RHF.field (form2 (rest_of ["muiProps"; "config"] props)) →
  let dropdown1 := render form1 (MuiAutocomplete props) in
  let dropdown2 := render form2 (MuiAutocomplete props) in
  (∀ k, k ≠ "renderInput" → eprops dropdown1 !! k = eprops dropdown2 !! k)
  ∧ (∀ args, fire dropdown1 "onChange" args = fire dropdown2 "onChange" args)
  ∧ ∃ tf1 tf2,
      fire dropdown1 "renderInput" [params] = Renders TextField tf1
      ∧ fire dropdown2 "renderInput" [params] = Renders TextField tf2
      ∧ ∀ k, k ≠ "error" → k ≠ "helperText" → tf1 !! k = tf2 !! k.
Proof.
  intros Hfield dropdown1 dropdown2. subst dropdown1 dropdown2.
  split; [|split].
  - intros k Hk.
    destruct (decide (k ∈ RESERVED_PROPS)) as [Hin|Hout];
      [rewrite !dropdown_reserved by assumption; reflexivity|].
    rewrite !dropdown_lookup by assumption.
    rewrite !(last_binding_skip k "renderInput") by assumption.
    rewrite Hfield. reflexivity.
  - intros args. rewrite !change_fired, Hfield. reflexivity.
  - destruct (input_lookup form1 props [params]) as (tf1 & Hfire1 & Htf1 & Hreserved1).
    destruct (input_lookup form2 props [params]) as (tf2 & Hfire2 & Htf2 & Hreserved2).
    exists tf1, tf2. split; [exact Hfire1|]. split; [exact Hfire2|].
    intros k Herror Htext.
    destruct (decide (k ∈ RESERVED_PROPS)) as [Hin|Hout];
      [rewrite Hreserved1, Hreserved2 by assumption; reflexivity|].
    rewrite Htf1, Htf2 by assumption.
    rewrite !(last_binding_skip k "helperText") by assumption.
    rewrite !(last_binding_skip k "error") by assumption.
    rewrite Hfield. reflexivity.
Qed.

Lemma validation_reaches_error_and_helper_text_only_witness :
  fire (render (film_form VNull required_error) (MuiAutocomplete label_props))
       "onChange" [VRef "event"; VObj the_matrix]
  = fire (render (film_form VNull VUndefined) (MuiAutocomplete label_props))
         "onChange" [VRef "event"; VObj the_matrix].
Proof.
  apply (proj1 (proj2 (validation_reaches_error_and_helper_text_only
                         (film_form VNull required_error) (film_form VNull VUndefined)
                         label_props widget_params eq_refl))).
Defined.
